(** * Books API: a shallow embedding of [models.py], [database.py], [main.py]

    The three Python modules are embedded as three Rocq modules of the same
    names.  Python values that reach the store are [value]s, Python dicts
    with string keys are [gmap string value], exceptions and the contents of
    the database file are threaded by the monad [M].

    What lies outside the repository is modelled as follows.
    - SQLite: the [books] table is a finite map from rowid to the other
      columns of the row (an INTEGER PRIMARY KEY is the key of the table's
      B-tree); a statement is executed atomically and committed; integers
      are mathematical integers and values are stored as bound (the driver's
      64-bit range and the engine's type affinity are not modelled); column
      names are compared literally.
    - Pydantic / FastAPI: a request body is a JSON object whose members have
      the declared JSON type or are [null]; the declared constraints are
      checked before the handler body runs and a failure is the framework's
      422 response.  What a handler returns is its result; the framework's
      serialisation of it is not modelled. *)

From stdpp Require Import gmap strings list fin_maps sorting pretty.

Open Scope Z_scope.

(** ** Values, dicts, exceptions *)

(** [None], an [int] or a [str]; also SQL NULL, INTEGER, TEXT. *)
Inductive value :=
| VNull
| VInt (n : Z)
| VText (s : string).

#[global] Instance value_eq_dec : EqDecision value.
Proof. solve_decision. Defined.

Abbreviation dict := (gmap string value).

(** [x is None] *)
Definition is_None (o : option value) : bool :=
  match o with
  | None | Some VNull => true
  | _ => false
  end.

(** Python truthiness of [d.get(k)]: a missing key gives [None]. *)
Definition truthy (o : option value) : bool :=
  match o with
  | None | Some VNull => false
  | Some (VInt n) => bool_decide (n ≠ 0)
  | Some (VText s) => bool_decide (s ≠ "")
  end.

Inductive exn :=
| HTTPException (status_code : Z) (detail : string)
| RequestValidationError (errors : list (string * string))
| OperationalError (msg : string)
| IntegrityError (msg : string).

(** The status the framework answers with when a request ends in [e]. *)
Definition status_of (e : exn) : Z :=
  match e with
  | HTTPException c _ => c
  | RequestValidationError _ => 422
  | OperationalError _ | IntegrityError _ => 500
  end.

(** ** The database file *)

(** Modelled from the spec: the schema of table [books] (its CREATE TABLE
    statement is not among the sources).  Columns as listed in the spec;
    [id] is the auto-assigned primary key, [created_at] is auto-assigned on
    insert, every other column defaults to NULL and no column other than
    the key carries a constraint. *)
Definition columns : list string :=
  ["id"; "title"; "author"; "publisher"; "price"; "publish_date"; "isbn";
   "cover_url"; "created_at"].

(** Modelled from the spec: the defaults of the columns other than [id]
    for a row inserted at time [now] (created_at DEFAULT CURRENT_TIMESTAMP). *)
Definition default_row (now : string) : dict :=
  {[ "title" := VNull; "author" := VNull; "publisher" := VNull;
     "price" := VNull; "publish_date" := VNull; "isbn" := VNull;
     "cover_url" := VNull; "created_at" := VText now ]}.

(** [books]: rowid ↦ the columns other than [id].  [sqlite_sequence]: the
    largest rowid the table ever held.  [clock]: what CURRENT_TIMESTAMP
    evaluates to. *)
Record db := mkdb {
  books : gmap Z dict;
  sqlite_sequence : Z;
  clock : string
}.

Definition set_books (t : gmap Z dict) (s : db) : db :=
  mkdb t (sqlite_sequence s) (clock s).

Definition set_clock (now : string) (s : db) : db :=
  mkdb (books s) (sqlite_sequence s) now.

(** ** State and exceptions *)

Inductive outcome (A : Type) :=
| Return (a : A)
| Raise (e : exn).
Arguments Return {A} a.
Arguments Raise {A} e.

Definition M (A : Type) : Type := db → outcome A * db.

#[global] Instance M_ret : MRet M := λ A a s, (Return a, s).

#[global] Instance M_bind : MBind M := λ A B f m s,
  match m s with
  | (Return a, s') => f a s'
  | (Raise e, s') => (Raise e, s')
  end.

Definition raise {A} (e : exn) : M A := λ s, (Raise e, s).

(** ** Statements and their execution *)

(** The statements [database.py] sends, with their parameters bound. *)
Inductive sql :=
| SELECT_ORDER_BY_id_LIMIT_OFFSET (limit offset : Z)
| SELECT_WHERE_id (id : Z)
| INSERT_INTO (cols : list (string * value))
| UPDATE_SET_WHERE_id (sets : list (string * value)) (id : Z)
| DELETE_WHERE_id (id : Z).

Record cursor := mkcursor {
  fetchall : list dict;
  rowcount : Z;
  lastrowid : Z
}.

Definition fetchone (c : cursor) : option dict := head (fetchall c).

(** [SELECT *] of one stored row. *)
Definition select_star (kr : Z * dict) : dict := <["id" := VInt kr.1]> kr.2.

Definition by_id : relation (Z * dict) := λ x y, x.1 ≤ y.1.

#[global] Instance by_id_dec x y : Decision (by_id x y).
Proof. unfold by_id. apply _. Defined.

Definition order_by_id (t : gmap Z dict) : list (Z * dict) :=
  merge_sort by_id (map_to_list t).

(** A negative LIMIT is no limit, a negative OFFSET is no offset. *)
Definition limit_offset {A} (limit offset : Z) (l : list A) : list A :=
  let l' := drop (Z.to_nat offset) l in
  if decide (limit < 0) then l' else take (Z.to_nat limit) l'.

(** The rows a [WHERE id = k] selects. *)
Definition where_id (k : Z) (t : gmap Z dict) : gmap Z dict :=
  filter (λ kr, kr.1 = k) t.

(** The largest rowid in the table, 0 for none. *)
Definition max_rowid (t : gmap Z dict) : Z :=
  foldr Z.max 0 (map_to_list t).*1.

(** Modelled from the spec: the id the store assigns to a new row, above
    every id the table holds or ever held. *)
Definition new_rowid (s : db) : Z :=
  Z.max (sqlite_sequence s) (max_rowid (books s)) + 1.

(** Every named column is a column of the table. *)
Definition known_columns (cols : list (string * value)) : bool :=
  forallb (λ kv, bool_decide (kv.1 ∈ columns)) cols.

(** [INSERT INTO books (c1, ...) VALUES (v1, ...)]: the columns left out
    take their defaults; a value given for [id] is the key of the new row
    and must be free, otherwise the store assigns the key. *)
Definition exec_insert (cols : list (string * value)) : M cursor := λ s,
  if bool_decide (cols = []) then
    (Raise (OperationalError "incomplete input: no column list"), s)
  else if negb (known_columns cols) then
    (Raise (OperationalError "table books has no such column"), s)
  else
    let given : dict := list_to_map cols in
    let row := delete "id" given ∪ default_row (clock s) in
    let store k :=
      (Return (mkcursor [] 1 k),
       mkdb (<[k := row]> (books s)) (Z.max (sqlite_sequence s) k) (clock s)) in
    match given !! "id" with
    | None | Some VNull => store (new_rowid s)
    | Some (VInt k) =>
        if decide (is_Some (books s !! k)) then
          (Raise (IntegrityError "UNIQUE constraint failed: books.id"), s)
        else store k
    | Some (VText _) => (Raise (IntegrityError "datatype mismatch"), s)
    end.

(** [UPDATE books SET c1 = v1, ... WHERE id = k]: the selected rows take
    the given values and keep their other columns; a value given for [id]
    moves the row to that key, which must be free.  [rowcount] is the
    number of rows selected. *)
Definition exec_update (sets : list (string * value)) (k : Z) : M cursor := λ s,
  if bool_decide (sets = []) then
    (Raise (OperationalError "near WHERE: syntax error"), s)
  else if negb (known_columns sets) then
    (Raise (OperationalError "no such column"), s)
  else
    let given : dict := list_to_map sets in
    let hit := where_id k (books s) in
    let updated := (λ r, delete "id" given ∪ r) <$> hit in
    let n := Z.of_nat (size hit) in
    match given !! "id", books s !! k with
    | None, _ | Some _, None =>
        (Return (mkcursor [] n 0), set_books (updated ∪ books s) s)
    | Some (VInt k'), Some r =>
        if decide (k' = k) then
          (Return (mkcursor [] n 0), set_books (updated ∪ books s) s)
        else if decide (is_Some (books s !! k')) then
          (Raise (IntegrityError "UNIQUE constraint failed: books.id"), s)
        else
          (Return (mkcursor [] n 0),
           set_books (<[k' := delete "id" given ∪ r]> (delete k (books s))) s)
    | Some _, Some _ => (Raise (IntegrityError "datatype mismatch"), s)
    end.

(** [DELETE FROM books WHERE id = k] *)
Definition exec_delete (k : Z) : M cursor := λ s,
  let hit := where_id k (books s) in
  (Return (mkcursor [] (Z.of_nat (size hit)) 0),
   set_books (books s ∖ hit) s).

(** [conn.execute(...)] followed by [conn.commit()]. *)
Definition execute (q : sql) : M cursor :=
  match q with
  | SELECT_ORDER_BY_id_LIMIT_OFFSET limit offset => λ s,
      (Return (mkcursor
         (select_star <$> limit_offset limit offset (order_by_id (books s)))
         (-1) 0), s)
  | SELECT_WHERE_id k => λ s,
      (Return (mkcursor (select_star <$> map_to_list (where_id k (books s)))
                        (-1) 0), s)
  | INSERT_INTO cols => exec_insert cols
  | UPDATE_SET_WHERE_id sets k => exec_update sets k
  | DELETE_WHERE_id k => exec_delete k
  end.

(** ** models.py *)

Module models.

(** A member of the request body: absent, [null], or a value of the
    declared type.  Pydantic records the first case in its set of unset
    fields. *)
Inductive field (A : Type) :=
| Unset
| Null
| Given (a : A).
Arguments Unset {A}.
Arguments Null {A}.
Arguments Given {A} a.

Record BookCreate := mkBookCreate {
  title : field string;
  author : field string;
  publisher : field string;
  price : field Z;
  publish_date : field string;
  isbn : field string;
  cover_url : field string
}.

Definition is_digit (c : Ascii.ascii) : bool :=
  let n := Z.of_nat (Ascii.nat_of_ascii c) in bool_decide (48 ≤ n ≤ 57).

Definition is_dash (c : Ascii.ascii) : bool :=
  bool_decide (Ascii.nat_of_ascii c = 45%nat).

(** [^\d{4}-\d{2}-\d{2}$], with [\d] an ASCII digit. *)
Definition publish_date_pattern (s : string) : bool :=
  match String.list_ascii_of_string s with
  | [y1; y2; y3; y4; a; m1; m2; b; d1; d2] =>
      forallb is_digit [y1; y2; y3; y4; m1; m2; d1; d2] && is_dash a && is_dash b
  | _ => false
  end.

(** [Field(None, min_length=1)] *)
Definition check_min_length_1 (loc : string) (f : field string)
  : list (string * string) :=
  match f with
  | Given s => if bool_decide (s = "") then [(loc, "string_too_short")] else []
  | _ => []
  end.

(** [Field(None, pattern=...)] *)
Definition check_pattern (loc : string) (f : field string)
  : list (string * string) :=
  match f with
  | Given s =>
      if publish_date_pattern s then [] else [(loc, "string_pattern_mismatch")]
  | _ => []
  end.

(** [validate_price_on_create]: [None] when the value passes. *)
Definition validate_price_on_create (v : option Z) : option string :=
  match v with
  | Some n => if bool_decide (n ≤ 0) then Some "value_error" else None
  | None => None
  end.

(** [Field(None, gt=0)], then the validator on a value that passed. *)
Definition check_price (loc : string) (f : field Z) : list (string * string) :=
  match f with
  | Given n =>
      if bool_decide (0 < n) then
        match validate_price_on_create (Some n) with
        | Some e => [(loc, e)]
        | None => []
        end
      else [(loc, "greater_than")]
  | _ =>
      match validate_price_on_create None with
      | Some e => [(loc, e)]
      | None => []
      end
  end.

(** The errors Pydantic reports for a body, in field order. *)
Definition validation_errors (b : BookCreate) : list (string * string) :=
  check_min_length_1 "title" (title b) ++
  check_min_length_1 "author" (author b) ++
  check_price "price" (price b) ++
  check_pattern "publish_date" (publish_date b).

Definition field_value {A} (inj : A → value) (f : field A) : option value :=
  match f with
  | Unset => None
  | Null => Some VNull
  | Given a => Some (inj a)
  end.

Definition set_item (k : string) (o : option value) (d : dict) : dict :=
  match o with
  | Some v => <[k := v]> d
  | None => d
  end.

(** [book.dict(exclude_unset=True)] *)
Definition dict_exclude_unset (b : BookCreate) : dict :=
  set_item "title" (field_value VText (title b))
  (set_item "author" (field_value VText (author b))
  (set_item "publisher" (field_value VText (publisher b))
  (set_item "price" (field_value VInt (price b))
  (set_item "publish_date" (field_value VText (publish_date b))
  (set_item "isbn" (field_value VText (isbn b))
  (set_item "cover_url" (field_value VText (cover_url b)) ∅)))))).

End models.

(** ** database.py *)

Module database.

Definition get_all_books (skip limit : Z) : M (list dict) :=
  cursor ← execute (SELECT_ORDER_BY_id_LIMIT_OFFSET limit skip);
  mret (fetchall cursor).

Definition get_book_by_id (book_id : Z) : M (option dict) :=
  cursor ← execute (SELECT_WHERE_id book_id);
  mret (fetchone cursor).

(** The statement [create_book] builds: [None] values are dropped. *)
Definition insert_statement (book_data : dict) : sql :=
  let filtered_data := filter (λ kv, kv.2 ≠ VNull) book_data in
  INSERT_INTO (map_to_list filtered_data).

(** [SELECT last_insert_rowid()] on the inserting connection is the
    cursor's [lastrowid]. *)
Definition create_book (book_data : dict) : M Z :=
  cursor ← execute (insert_statement book_data);
  mret (lastrowid cursor).

(** The statement [update_book] builds: [id] and [created_at] are dropped. *)
Definition update_statement (book_id : Z) (book_data : dict) : sql :=
  let update_data := filter (λ kv, kv.1 ∉ ["id"; "created_at"]) book_data in
  UPDATE_SET_WHERE_id (map_to_list update_data) book_id.

Definition update_book (book_id : Z) (book_data : dict) : M bool :=
  cursor ← execute (update_statement book_id book_data);
  mret (bool_decide (rowcount cursor = 1)).

Definition delete_book (book_id : Z) : M bool :=
  cursor ← execute (DELETE_WHERE_id book_id);
  mret (bool_decide (rowcount cursor = 1)).

End database.

(** ** main.py *)

Module main.
Import models.

(** [skip: int = Query(0, ge=0)], [limit: int = Query(10, gt=0, le=100)] *)
Definition query_errors (skip limit : Z) : list (string * string) :=
  (if bool_decide (0 ≤ skip) then [] else [("skip", "greater_than_equal")]) ++
  (if bool_decide (0 < limit) then [] else [("limit", "greater_than")]) ++
  (if bool_decide (limit ≤ 100) then [] else [("limit", "less_than_equal")]).

(** The framework validates declared parameters before the body runs. *)
Definition validated (errors : list (string * string)) : M unit :=
  match errors with
  | [] => mret ()
  | _ => raise (RequestValidationError errors)
  end.

Definition not_found (book_id : Z) : exn :=
  HTTPException 404 ("Book with id " +:+ pretty book_id +:+ " not found").

Definition read_books (skip limit : Z) : M (list dict) :=
  validated (query_errors skip limit);;
  books ← database.get_all_books skip limit;
  mret books.

Definition read_book (book_id : Z) : M dict :=
  book ← database.get_book_by_id book_id;
  match book with
  | None => raise (not_found book_id)
  | Some book => mret book
  end.

Definition create_book (book : BookCreate) : M dict :=
  validated (validation_errors book);;
  let book_data := dict_exclude_unset book in
  if negb (truthy (book_data !! "title")) || negb (truthy (book_data !! "author"))
     || is_None (book_data !! "price")
  then raise (HTTPException 422 "Title, Author, and Price are required fields.")
  else
    new_id ← database.create_book book_data;
    new_book ← database.get_book_by_id new_id;
    match new_book with
    | None => raise (HTTPException 500 "Failed to retrieve newly created book.")
    | Some new_book => mret new_book
    end.

Definition update_book (book_id : Z) (book : BookCreate) : M dict :=
  validated (validation_errors book);;
  found ← database.get_book_by_id book_id;
  if bool_decide (found = None) then raise (not_found book_id)
  else
    let update_data := dict_exclude_unset book in
    if bool_decide (update_data = ∅) then
      raise (HTTPException 400 "Request body cannot be empty for an update.")
    else
      success ← database.update_book book_id update_data;
      if negb success then
        raise (HTTPException 500 "Failed to update book due to internal error.")
      else
        updated_book ← database.get_book_by_id book_id;
        match updated_book with
        | None => raise (HTTPException 500 "Updated book disappeared.")
        | Some updated_book => mret updated_book
        end.

Definition delete_book (book_id : Z) : M unit :=
  deleted ← database.delete_book book_id;
  if negb deleted then raise (not_found book_id) else mret ().

End main.

(** ** Notions the properties are stated with *)

(** What [SELECT * FROM books WHERE id = k] finds in [s]. *)
Definition stored (s : db) (k : Z) : option dict :=
  (λ r, select_star (k, r)) <$> books s !! k.

(** The [id] of a fetched row. *)
Definition row_id (row : dict) : Z :=
  match row !! "id" with
  | Some (VInt k) => k
  | _ => 0
  end.

(** The [id] and [created_at] a fetched row shows. *)
Definition assigned_by_store (row : dict) : option value * option value :=
  (row !! "id", row !! "created_at").

(** A field mapping: a dict whose keys are columns of the table. *)
Definition field_mapping (d : dict) : Prop :=
  map_Forall (λ c _, c ∈ columns) d.

#[global] Instance field_mapping_dec d : Decision (field_mapping d).
Proof. unfold field_mapping. apply _. Defined.

(** The member [c] of a body as [dict(exclude_unset=True)] shows it. *)
Definition get_field (book : models.BookCreate) (c : string) : option value :=
  if decide (c = "title") then models.field_value VText (models.title book)
  else if decide (c = "author") then
    models.field_value VText (models.author book)
  else if decide (c = "publisher") then
    models.field_value VText (models.publisher book)
  else if decide (c = "price") then models.field_value VInt (models.price book)
  else if decide (c = "publish_date") then
    models.field_value VText (models.publish_date book)
  else if decide (c = "isbn") then models.field_value VText (models.isbn book)
  else if decide (c = "cover_url") then
    models.field_value VText (models.cover_url book)
  else None.

(** The test [create_book] makes before it inserts. *)
Definition missing_required (book_data : dict) : bool :=
  negb (truthy (book_data !! "title")) || negb (truthy (book_data !! "author"))
  || is_None (book_data !! "price").

(** A string member that is missing ([Unset] or [null]) or empty. *)
Definition missing_or_empty (f : models.field string) : Prop :=
  match f with
  | models.Given s => s = ""
  | _ => True
  end.

(** A price that is missing ([Unset] or [null]) or not greater than 0. *)
Definition missing_or_invalid (f : models.field Z) : Prop :=
  match f with
  | models.Given p => p ≤ 0
  | _ => True
  end.

(** Ascending [id], on fetched rows. *)
Definition ascending_id : relation dict := λ r1 r2, row_id r1 < row_id r2.


(** ** Histories of requests *)

Inductive request :=
| GET_books (skip limit : Z)
| GET_book (book_id : Z)
| POST_books (book : models.BookCreate)
| PUT_book (book_id : Z) (book : models.BookCreate)
| DELETE_book (book_id : Z).

Inductive reply :=
| Books (rows : list dict)
| Book (row : dict)
| NoContent.

Definition handle (r : request) : M reply :=
  match r with
  | GET_books skip limit => rows ← main.read_books skip limit; mret (Books rows)
  | GET_book book_id => row ← main.read_book book_id; mret (Book row)
  | POST_books book => row ← main.create_book book; mret (Book row)
  | PUT_book book_id book => row ← main.update_book book_id book; mret (Book row)
  | DELETE_book book_id => main.delete_book book_id;; mret NoContent
  end.

(** Requests served one after the other, each at the time paired with it;
    the result is the log of requests with their outcomes, and the store
    they leave. *)
Fixpoint run (history : list (string * request)) (s : db)
  : list (request * outcome reply) * db :=
  match history with
  | [] => ([], s)
  | (now, r) :: history =>
      let '(o, s') := handle r (set_clock now s) in
      let '(log, s'') := run history s' in
      ((r, o) :: log, s'')
  end.

(** The id a logged request had the store assign, if it inserted. *)
Definition inserted_id (entry : request * outcome reply) : option Z :=
  match entry with
  | (POST_books _, Return (Book row)) => Some (row_id row)
  | _ => None
  end.

Definition inserted_ids (log : list (request * outcome reply)) : list Z :=
  omap inserted_id log.

(** ** Sample data *)

Definition empty_db : db := mkdb ∅ 0 "2025-01-01 00:00:00".

Definition book_T : models.BookCreate :=
  models.mkBookCreate (models.Given "T") (models.Given "A") models.Unset
    (models.Given 100) models.Unset models.Unset models.Unset.

Definition only_price (p : Z) : models.BookCreate :=
  models.mkBookCreate models.Unset models.Unset models.Unset
    (models.Given p) models.Unset models.Unset models.Unset.


Definition null_publisher : models.BookCreate :=
  models.mkBookCreate (models.Given "T") (models.Given "A") models.Null
    (models.Given 100) models.Unset models.Unset models.Unset.

(** The store after [POST /books] of [book_T] into the empty one. *)
Definition shelf : db := (main.create_book book_T empty_db).2.

Definition row_T : dict :=
  {[ "id" := VInt 1; "title" := VText "T"; "author" := VText "A";
     "publisher" := VNull; "price" := VInt 100; "publish_date" := VNull;
     "isbn" := VNull; "cover_url" := VNull;
     "created_at" := VText "2025-01-01 00:00:00" ]}.

(** One book created, deleted again, and two more created. *)
Definition busy_day : list (string * request) :=
  [("2025-01-01 09:00:00", POST_books book_T);
   ("2025-01-01 10:00:00", DELETE_book 1);
   ("2025-01-01 11:00:00", POST_books book_T);
   ("2025-01-01 12:00:00", POST_books null_publisher)].

(** ** Invariants of the table *)

(** A stored row holds every column of the table but the key. *)
Definition table_shape (s : db) : Prop :=
  map_Forall (λ _ r, dom r = dom (default_row "")) (books s).

#[global] Instance table_shape_dec s : Decision (table_shape s).
Proof. unfold table_shape. apply _. Defined.

(** What the constraints of [BookCreate] leave possible in column [c]:
    [title] and [author] hold NULL or a non-empty text, [price] NULL or an
    integer above 0, [publish_date] NULL or a text of the pattern. *)
Definition constrained (c : string) (v : value) : bool :=
  if decide (c = "title" ∨ c = "author") then
    match v with
    | VNull => true
    | VText t => bool_decide (t ≠ "")
    | VInt _ => false
    end
  else if decide (c = "price") then
    match v with
    | VNull => true
    | VInt p => bool_decide (0 < p)
    | VText _ => false
    end
  else if decide (c = "publish_date") then
    match v with
    | VNull => true
    | VText d => models.publish_date_pattern d
    | VInt _ => false
    end
  else true.

Definition constrained_row (r : dict) : Prop :=
  map_Forall (λ c v, constrained c v = true) r.

Definition constrained_table (s : db) : Prop :=
  map_Forall (λ _ r, constrained_row r) (books s).

#[global] Instance constrained_table_dec s : Decision (constrained_table s).
Proof. unfold constrained_table, constrained_row. apply _. Defined.


(** * Properties *)

(** ** The store *)

Section store.
Implicit Types (s : db) (t : gmap Z dict) (k : Z) (r : dict).

Lemma where_id_lookup k t k' :
  where_id k t !! k' = if decide (k' = k) then t !! k' else None.
Proof.
  unfold where_id. rewrite map_lookup_filter.
  destruct (t !! k') as [r|]; simpl; [|by case_decide].
  case_decide as Hk.
  - by rewrite option_guard_True.
  - by rewrite option_guard_False.
Qed.

(** The primary key selects at most one row. *)
Lemma where_id_eq k t :
  where_id k t = match t !! k with Some r => {[ k := r ]} | None => ∅ end.
Proof.
  apply map_eq. intros k'. rewrite where_id_lookup.
  case_decide as Hk; [subst k'|].
  - destruct (t !! k); [by rewrite lookup_singleton_eq | done].
  - destruct (t !! k); [by rewrite lookup_singleton_ne | done].
Qed.

Lemma where_id_size k t :
  Z.of_nat (size (where_id k t)) = match t !! k with Some _ => 1 | None => 0 end.
Proof.
  rewrite where_id_eq. destruct (t !! k).
  - by rewrite map_size_singleton.
  - by rewrite map_size_empty.
Qed.

Lemma max_rowid_ge t k r : t !! k = Some r → k ≤ max_rowid t.
Proof.
  intros Hk. unfold max_rowid.
  assert (k ∈ (map_to_list t).*1) as Hin.
  { apply list_elem_of_fmap. exists (k, r). by rewrite elem_of_map_to_list. }
  revert Hin. generalize ((map_to_list t).*1). intros l.
  induction l as [|x l IH]; intros Hin; [by apply elem_of_nil in Hin|].
  apply elem_of_cons in Hin as [->|Hin]; simpl; [lia|].
  specialize (IH Hin). lia.
Qed.

Lemma new_rowid_fresh s : books s !! new_rowid s = None.
Proof.
  destruct (books s !! new_rowid s) as [r|] eqn:E; [|done].
  apply max_rowid_ge in E. unfold new_rowid in E. lia.
Qed.

Lemma new_rowid_gt s : sqlite_sequence s < new_rowid s.
Proof. unfold new_rowid. lia. Qed.

End store.



Lemma row_id_select_star kr : row_id (select_star kr) = kr.1.
Proof. unfold row_id, select_star. by rewrite lookup_insert_eq. Qed.

Lemma stored_Some s k row :
  stored s k = Some row ↔ ∃ r, books s !! k = Some r ∧ row = <["id" := VInt k]> r.
Proof.
  unfold stored, select_star. destruct (books s !! k) as [r|]; simpl.
  - split; [intros [= <-]; eauto | intros (? & [= <-] & ->); done].
  - split; [done | intros (? & [=] & _)].
Qed.


(** ** database.py *)

Ltac unfold_M := unfold mbind, M_bind, mret, M_ret, raise.
Ltac run_M := unfold_M; simpl.

Lemma get_book_by_id_stored book_id s :
  database.get_book_by_id book_id s = (Return (stored s book_id), s).
Proof.
  unfold database.get_book_by_id, stored. run_M. f_equal. f_equal.
  unfold fetchone. simpl. rewrite where_id_eq.
  destruct (books s !! book_id) as [r|]; simpl.
  - by rewrite map_to_list_singleton.
  - by rewrite map_to_list_empty.
Qed.

Lemma delete_book_spec book_id s :
  database.delete_book book_id s =
    (Return (bool_decide (is_Some (books s !! book_id))),
     set_books (delete book_id (books s)) s).
Proof.
  unfold database.delete_book. run_M. unfold exec_delete.
  rewrite where_id_size. f_equal.
  - f_equal. by destruct (books s !! book_id).
  - f_equal. apply map_eq. intros k'. rewrite lookup_difference, where_id_lookup.
    rewrite lookup_delete. case_decide; subst.
    + rewrite decide_True by done. by destruct (books s !! book_id).
    + by rewrite decide_False by done.
Qed.


Lemma known_columns_map_to_list d :
  field_mapping d → known_columns (map_to_list d) = true.
Proof.
  intros Hd. unfold known_columns. apply forallb_forall.
  intros [c v] Hin. apply bool_decide_eq_true_2.
  apply list_elem_of_In, elem_of_map_to_list in Hin. by apply (Hd c v).
Qed.

Lemma map_to_list_nonempty (d : dict) :
  d ≠ ∅ → bool_decide (map_to_list d = []) = false.
Proof.
  intros Hd. apply bool_decide_eq_false_2. by rewrite map_to_list_empty_iff.
Qed.

Lemma exec_update_spec d k s :
  d ≠ ∅ → field_mapping d → d !! "id" = None →
  exec_update (map_to_list d) k s =
    (Return (mkcursor [] (Z.of_nat (size (where_id k (books s)))) 0),
     set_books (alter (λ r, d ∪ r) k (books s)) s).
Proof.
  intros Hne Hcols Hid. unfold exec_update.
  rewrite map_to_list_nonempty, known_columns_map_to_list by done. simpl.
  rewrite list_to_map_to_list, Hid, delete_id by done.
  do 2 f_equal. apply map_eq. intros k'.
  rewrite lookup_union, lookup_fmap, where_id_lookup, lookup_alter.
  case_decide; subst.
  - rewrite decide_True by done. by destruct (books s !! k).
  - rewrite decide_False by done. simpl. by destruct (books s !! k').
Qed.

Lemma exec_insert_spec d s :
  d ≠ ∅ → field_mapping d → d !! "id" = None →
  exec_insert (map_to_list d) s =
    (Return (mkcursor [] 1 (new_rowid s)),
     mkdb (<[new_rowid s := d ∪ default_row (clock s)]> (books s))
          (new_rowid s) (clock s)).
Proof.
  intros Hne Hcols Hid. unfold exec_insert.
  rewrite map_to_list_nonempty, known_columns_map_to_list by done. simpl.
  rewrite list_to_map_to_list, Hid, delete_id by done.
  do 2 f_equal. pose proof (new_rowid_gt s). lia.
Qed.

Lemma protected_key c : c ∈ ["id"; "created_at"] ↔ c = "id" ∨ c = "created_at".
Proof. rewrite !elem_of_cons, elem_of_nil. tauto. Qed.

Section update_data.
Variable book_data : dict.
Let update_data : dict := filter (λ kv, kv.1 ∉ ["id"; "created_at"]) book_data.

Lemma update_data_lookup c :
  update_data !! c =
    if decide (c = "id" ∨ c = "created_at") then None else book_data !! c.
Proof.
  unfold update_data. rewrite map_lookup_filter.
  destruct (book_data !! c) as [v|]; simpl; [|by case_decide].
  case_decide as Hc.
  - rewrite option_guard_False; [done|]. intros Hn. by apply Hn, protected_key.
  - rewrite option_guard_True; [done|]. by rewrite protected_key.
Qed.

Lemma update_data_field_mapping : field_mapping book_data → field_mapping update_data.
Proof.
  intros Hd c v Hc. rewrite update_data_lookup in Hc.
  case_decide; [done|]. by apply (Hd c v).
Qed.

Lemma update_book_spec book_id s :
  field_mapping book_data → update_data ≠ ∅ →
  database.update_book book_id book_data s =
    (Return (bool_decide (is_Some (books s !! book_id))),
     set_books (alter (λ r, update_data ∪ r) book_id (books s)) s).
Proof.
  intros Hd Hne. unfold database.update_book, database.update_statement.
  run_M. fold update_data. rewrite exec_update_spec; try done.
  - simpl. rewrite where_id_size. by destruct (books s !! book_id).
  - by apply update_data_field_mapping.
  - rewrite update_data_lookup. by rewrite decide_True by auto.
Qed.

End update_data.

Section filtered_data.
Variable book_data : dict.
Let filtered_data : dict := filter (λ kv, kv.2 ≠ VNull) book_data.

Lemma filtered_data_lookup c :
  filtered_data !! c =
    match book_data !! c with
    | Some VNull | None => None
    | Some v => Some v
    end.
Proof.
  unfold filtered_data. rewrite map_lookup_filter.
  by destruct (book_data !! c) as [[| |]|].
Qed.

Lemma filtered_data_field_mapping :
  field_mapping book_data → field_mapping filtered_data.
Proof.
  intros Hd c v Hc. rewrite filtered_data_lookup in Hc.
  apply (Hd c v). by destruct (book_data !! c) as [[]|].
Qed.

Lemma create_book_spec s :
  field_mapping book_data → filtered_data ≠ ∅ → book_data !! "id" = None →
  database.create_book book_data s =
    (Return (new_rowid s),
     mkdb (<[new_rowid s := filtered_data ∪ default_row (clock s)]> (books s))
          (new_rowid s) (clock s)).
Proof.
  intros Hd Hne Hid. unfold database.create_book, database.insert_statement.
  run_M. fold filtered_data. rewrite exec_insert_spec; try done.
  - by apply filtered_data_field_mapping.
  - by rewrite filtered_data_lookup, Hid.
Qed.

End filtered_data.

(** ** models.py *)

Section BookCreate.
Import models.
Variable book : BookCreate.

Lemma lookup_set_item k o (d : dict) c :
  set_item k o d !! c =
    if decide (c = k) then from_option Some (d !! c) o else d !! c.
Proof.
  destruct o as [v|]; simpl.
  - rewrite lookup_insert. by repeat case_decide.
  - by case_decide.
Qed.


Lemma dict_exclude_unset_lookup c :
  dict_exclude_unset book !! c = get_field book c.
Proof.
  unfold dict_exclude_unset, get_field. rewrite !lookup_set_item, lookup_empty.
  repeat case_decide; subst; try done;
    match goal with |- from_option _ _ ?o = _ => by destruct o end.
Qed.

Lemma dict_exclude_unset_field_mapping : field_mapping (dict_exclude_unset book).
Proof.
  intros c v. rewrite dict_exclude_unset_lookup. unfold get_field.
  repeat case_decide; subst; try done; intros _;
    unfold columns; rewrite !elem_of_cons; tauto.
Qed.

Lemma dict_exclude_unset_no_id : dict_exclude_unset book !! "id" = None.
Proof. by rewrite dict_exclude_unset_lookup. Qed.

Lemma dict_exclude_unset_no_created_at :
  dict_exclude_unset book !! "created_at" = None.
Proof. by rewrite dict_exclude_unset_lookup. Qed.

Lemma dict_exclude_unset_update_data :
  filter (λ kv, kv.1 ∉ ["id"; "created_at"]) (dict_exclude_unset book)
  = dict_exclude_unset book.
Proof.
  apply map_filter_id. intros c v Hc. simpl. rewrite protected_key.
  intros [-> | ->].
  - by rewrite dict_exclude_unset_no_id in Hc.
  - by rewrite dict_exclude_unset_no_created_at in Hc.
Qed.

End BookCreate.

(** ** main.py *)

Section handlers.
Import models.
#[local] Opaque database.get_all_books database.get_book_by_id
  database.create_book database.update_book database.delete_book.
Implicit Types (s : db) (book : BookCreate) (book_id : Z).

Lemma validated_spec errors s :
  main.validated errors s =
    match errors with
    | [] => (Return (), s)
    | _ => (Raise (RequestValidationError errors), s)
    end.
Proof. by destruct errors. Qed.

Lemma read_book_spec book_id s :
  main.read_book book_id s =
    match stored s book_id with
    | Some row => (Return row, s)
    | None => (Raise (main.not_found book_id), s)
    end.
Proof.
  unfold main.read_book. unfold_M. rewrite get_book_by_id_stored.
  by destruct (stored s book_id).
Qed.

Lemma delete_book_handler_spec book_id s :
  main.delete_book book_id s =
    match books s !! book_id with
    | Some _ => (Return (), set_books (delete book_id (books s)) s)
    | None => (Raise (main.not_found book_id), s)
    end.
Proof.
  unfold main.delete_book. unfold_M. rewrite delete_book_spec.
  destruct (books s !! book_id) eqn:E; simpl; [done|].
  rewrite delete_id by done. by destruct s.
Qed.

Lemma update_book_handler_spec book_id book s :
  main.update_book book_id book s =
    match validation_errors book with
    | _ :: _ => (Raise (RequestValidationError (validation_errors book)), s)
    | [] =>
        match books s !! book_id with
        | None => (Raise (main.not_found book_id), s)
        | Some r =>
            let update_data := dict_exclude_unset book in
            if decide (update_data = ∅) then
              (Raise (HTTPException 400
                        "Request body cannot be empty for an update."), s)
            else
              (Return (select_star (book_id, update_data ∪ r)),
               set_books (alter (λ r, update_data ∪ r) book_id (books s)) s)
        end
    end.
Proof.
  unfold main.update_book. unfold_M. rewrite validated_spec.
  destruct (validation_errors book); [|done].
  rewrite get_book_by_id_stored. unfold stored.
  destruct (books s !! book_id) as [r|] eqn:Hr; simpl; [|done].
  case_decide as Hempty.
  { by rewrite bool_decide_eq_true_2. }
  rewrite bool_decide_eq_false_2 by done.
  rewrite update_book_spec;
    rewrite ?dict_exclude_unset_update_data;
    auto using dict_exclude_unset_field_mapping.
  rewrite Hr, bool_decide_eq_true_2 by eauto. simpl.
  rewrite get_book_by_id_stored. unfold stored. simpl.
  by rewrite lookup_alter_eq, Hr.
Qed.


Lemma create_book_handler_spec book s :
  main.create_book book s =
    match validation_errors book with
    | _ :: _ => (Raise (RequestValidationError (validation_errors book)), s)
    | [] =>
        let book_data := dict_exclude_unset book in
        if missing_required book_data then
          (Raise (HTTPException 422
                    "Title, Author, and Price are required fields."), s)
        else
          let row :=
            filter (λ kv, kv.2 ≠ VNull) book_data ∪ default_row (clock s) in
          (Return (select_star (new_rowid s, row)),
           mkdb (<[new_rowid s := row]> (books s)) (new_rowid s) (clock s))
    end.
Proof.
  unfold main.create_book. unfold_M. rewrite validated_spec.
  destruct (validation_errors book); [|done].
  fold (missing_required (dict_exclude_unset book)).
  destruct (missing_required (dict_exclude_unset book)) eqn:Hreq; [done|].
  rewrite create_book_spec;
    auto using dict_exclude_unset_field_mapping, dict_exclude_unset_no_id.
  - simpl. rewrite get_book_by_id_stored. unfold stored. simpl.
    by rewrite lookup_insert_eq.
  - intros Hempty.
    assert (filter (λ kv, kv.2 ≠ VNull) (dict_exclude_unset book) !! "title"
            = None) as Ht by by rewrite Hempty.
    rewrite filtered_data_lookup in Ht. unfold missing_required in Hreq.
    by destruct (dict_exclude_unset book !! "title") as [[| |]|].
Qed.

End handlers.


Section claims.
Import models.
Implicit Types (s : db) (book : BookCreate) (book_id : Z) (row : dict).


Lemma lookup_Some_nonempty (d : dict) c v : d !! c = Some v → d ≠ ∅.
Proof. intros Hc ->. by rewrite lookup_empty in Hc. Qed.





(** C4: a create whose body carries a price that is not greater than 0 fails
    with the validation error (422) naming the price, and the store is left
    as it was. *)
Theorem create_rejects_price_not_positive s book p :
  price book = Given p → p ≤ 0 →
  main.create_book book s =
    (Raise (RequestValidationError (validation_errors book)), s)
  ∧ ("price", "greater_than") ∈ validation_errors book
  ∧ status_of (RequestValidationError (validation_errors book)) = 422.
Proof.
  intros Hp Hle.
  assert (("price", "greater_than") ∈ validation_errors book) as Hin.
  { unfold validation_errors, check_price. rewrite Hp.
    rewrite bool_decide_eq_false_2 by lia.
    rewrite !elem_of_app, list_elem_of_singleton. auto. }
  split; [|done].
  rewrite create_book_handler_spec.
  destruct (validation_errors book); [|done]. by apply elem_of_nil in Hin.
Qed.

Lemma create_rejects_price_not_positive_witness :
  main.create_book (only_price 0) shelf =
    (Raise (RequestValidationError [("price", "greater_than")]), shelf)
  ∧ main.create_book (only_price (-5)) shelf =
    (Raise (RequestValidationError [("price", "greater_than")]), shelf).
Proof.
  split.
  - apply (create_rejects_price_not_positive shelf (only_price 0) 0);
      [reflexivity | lia].
  - apply (create_rejects_price_not_positive shelf (only_price (-5)) (-5));
      [reflexivity | lia].
Defined.



(** C6: a create whose title is missing or empty, or whose author is missing
    or empty, or whose price is missing or invalid, fails with status 422,
    returns no record and leaves the store as it was. *)
Theorem create_requires_title_author_price s book :
  missing_or_empty (title book) ∨ missing_or_empty (author book)
  ∨ missing_or_invalid (price book) →
  ∃ e, main.create_book book s = (Raise e, s) ∧ status_of e = 422.
Proof.
  intros Hbad. rewrite create_book_handler_spec.
  destruct (validation_errors book) as [|e errs] eqn:Hvalid; [|by eexists].
  cbv zeta.
  destruct (missing_required (dict_exclude_unset book)) eqn:Hreq;
    [by eexists|].
  exfalso. apply not_true_iff_false in Hreq. apply Hreq. clear Hreq.
  unfold missing_required. rewrite !dict_exclude_unset_lookup.
  unfold get_field. simpl.
  unfold validation_errors in Hvalid.
  apply app_eq_nil in Hvalid as [Ht Hvalid].
  apply app_eq_nil in Hvalid as [Ha Hvalid].
  apply app_eq_nil in Hvalid as [Hp _].
  destruct Hbad as [Hbad | [Hbad | Hbad]].
  - destruct (title book) as [| |t]; simpl in *; try done.
    subst t. by rewrite bool_decide_eq_true_2 in Ht.
  - destruct (author book) as [| |a]; simpl in *;
      try by rewrite orb_true_r.
    subst a. by rewrite bool_decide_eq_true_2 in Ha.
  - destruct (price book) as [| |p]; simpl in *;
      try by rewrite !orb_true_r.
    by rewrite bool_decide_eq_false_2 in Hp by lia.
Qed.

Lemma create_requires_title_author_price_witness :
  ∃ e, main.create_book (only_price 100) shelf = (Raise e, shelf)
       ∧ status_of e = 422.
Proof.
  apply (create_requires_title_author_price shelf (only_price 100)).
  left. exact I.
Defined.

(** The effect of a replace on the store, for a body that passes
    validation. *)
Lemma update_book_effect s book_id book row :
  validation_errors book = [] →
  dict_exclude_unset book ≠ ∅ →
  stored s book_id = Some row →
  let row' := dict_exclude_unset book ∪ row in
  ∃ s', main.update_book book_id book s = (Return row', s')
        ∧ stored s' book_id = Some row'
        ∧ (∀ k, k ≠ book_id → stored s' k = stored s k)
        ∧ sqlite_sequence s' = sqlite_sequence s.
Proof.
  intros Hvalid Hne Hrow row'. apply stored_Some in Hrow as (r & Hr & ->).
  rewrite update_book_handler_spec, Hvalid, Hr. simpl.
  rewrite decide_False by done.
  assert (select_star (book_id, dict_exclude_unset book ∪ r) = row') as ->.
  { unfold select_star, row'. simpl. apply insert_union_r.
    apply dict_exclude_unset_no_id. }
  eexists. split; [done|]. unfold stored. simpl. split; [|split; [|done]].
  - rewrite lookup_alter_eq, Hr. simpl. unfold select_star, row'. simpl.
    f_equal. apply insert_union_r, dict_exclude_unset_no_id.
  - intros k Hk. by rewrite lookup_alter_ne.
Qed.











(** The engine itself would set both columns if asked to: it is the filter
    in [update_book] that keeps them out of the statement. *)
Remark unfiltered_statement_sets_id_created_at :
  let q := UPDATE_SET_WHERE_id [("id", VInt 7); ("created_at", VText "x")] 1 in
  stored (execute q shelf).2 1 = None
  ∧ assigned_by_store <$> stored (execute q shelf).2 7
    = Some (Some (VInt 7), Some (VText "x")).
Proof. by vm_compute. Qed.

End claims.

(** ** Listing *)


#[local] Instance by_id_transitive : Transitive by_id.
Proof. unfold by_id. intros x y z. lia. Qed.

#[local] Instance by_id_total : Total by_id.
Proof. unfold by_id. intros x y. lia. Qed.

#[local] Instance ascending_id_antisymm : AntiSymm (=) ascending_id.
Proof. unfold ascending_id. intros x y. lia. Qed.

Lemma order_by_id_Permutation t : order_by_id t ≡ₚ map_to_list t.
Proof. apply merge_sort_Permutation. Qed.

Lemma order_by_id_length t : length (order_by_id t) = size t.
Proof. by rewrite order_by_id_Permutation, length_map_to_list. Qed.

Lemma StronglySorted_by_id_strict (l : list (Z * dict)) :
  StronglySorted by_id l → NoDup l.*1 →
  StronglySorted (λ x y, x.1 < y.1) l.
Proof.
  induction 1 as [|x l Hl IH Hx]; intros Hnd; [constructor|].
  apply NoDup_cons in Hnd as [Hnotin Hnd]. constructor; [by apply IH|].
  rewrite Forall_forall in Hx. apply Forall_forall. intros y Hy.
  specialize (Hx y Hy). unfold by_id in Hx.
  assert (x.1 ≠ y.1); [|lia].
  intros Heq. apply Hnotin. rewrite Heq. apply list_elem_of_fmap. eauto.
Qed.



Section claim_listing.
Implicit Types (s : db).



(** The second page of one row, of a table holding the ids 2 and 3. *)
Example list_books_second_page :
  (λ o, match o with Return rows => row_id <$> rows | Raise _ => [] end)
    (main.read_books 1 1 (run busy_day empty_db).2).1 = [3].
Proof. by vm_compute. Qed.

End claim_listing.



Section histories.
Import models.
Implicit Types (s : db) (r : request) (book : BookCreate).

Lemma read_books_state skip limit s : (main.read_books skip limit s).2 = s.
Proof.
  unfold main.read_books, database.get_all_books. unfold_M.
  rewrite validated_spec. by destruct (main.query_errors skip limit).
Qed.

Lemma bind_mret_state {A B} (m : M A) (f : A → B) s :
  ((x ← m; mret (f x)) s).2 = (m s).2.
Proof. unfold_M. by destruct (m s) as [[a|e] s']. Qed.







(** The id of the deleted first book is not given out again. *)
Example ids_of_busy_day :
  inserted_ids (run busy_day empty_db).1 = [1; 2; 3]
  ∧ new_rowid (run busy_day empty_db).2 = 4
  ∧ stored (run busy_day empty_db).2 1 = None.
Proof. by vm_compute. Qed.

End histories.

(** * Further properties *)

Section reading.
Implicit Types (s : db) (book_id : Z) (row : dict).

Lemma read_books_spec skip limit s :
  main.read_books skip limit s =
    match main.query_errors skip limit with
    | [] =>
        (Return (select_star <$>
                   limit_offset limit skip (order_by_id (books s))), s)
    | _ => (Raise (RequestValidationError (main.query_errors skip limit)), s)
    end.
Proof.
  unfold main.read_books, database.get_all_books. unfold_M.
  rewrite validated_spec. by destruct (main.query_errors skip limit).
Qed.

Lemma elem_of_order_by_id t k r :
  (k, r) ∈ order_by_id t ↔ t !! k = Some r.
Proof. by rewrite order_by_id_Permutation, elem_of_map_to_list. Qed.






(** X4: every row of a listing is the record [GET /books/{id}] returns for
    the id the row shows. *)
Theorem listed_rows_are_fetchable s (skip limit : Z) rows row :
  main.read_books skip limit s = (Return rows, s) →
  row ∈ rows →
  main.read_book (row_id row) s = (Return row, s).
Proof.
  rewrite read_books_spec.
  destruct (main.query_errors skip limit); [|done].
  intros [= <-] Hin.
  apply list_elem_of_fmap in Hin as ([k r] & -> & Hin).
  unfold limit_offset in Hin.
  assert ((k, r) ∈ order_by_id (books s)) as Hkr.
  { case_decide.
    - by apply (subseteq_drop _ _ _ Hin).
    - by apply (subseteq_drop (Z.to_nat skip)), (subseteq_take _ _ _ Hin). }
  apply elem_of_order_by_id in Hkr.
  rewrite row_id_select_star, read_book_spec. unfold stored. simpl.
  by rewrite Hkr.
Qed.

Lemma listed_rows_are_fetchable_witness :
  main.read_book (row_id row_T) shelf = (Return row_T, shelf).
Proof.
  apply (listed_rows_are_fetchable shelf 0 10 [row_T] row_T).
  - reflexivity.
  - apply list_elem_of_singleton. reflexivity.
Defined.

End reading.

Section writing.
Import models.
Implicit Types (s : db) (book : BookCreate) (book_id : Z) (row : dict).







Lemma create_book_returns book s new_book s' :
  main.create_book book s = (Return new_book, s') →
  let row :=
    filter (λ kv, kv.2 ≠ VNull) (dict_exclude_unset book)
    ∪ default_row (clock s) in
  validation_errors book = []
  ∧ missing_required (dict_exclude_unset book) = false
  ∧ new_book = select_star (new_rowid s, row)
  ∧ s' = mkdb (<[new_rowid s := row]> (books s)) (new_rowid s) (clock s).
Proof.
  rewrite create_book_handler_spec.
  destruct (validation_errors book); [|done]. cbv zeta.
  destruct (missing_required _); [done|]. by intros [= <- <-].
Qed.

Lemma default_row_lookup now c :
  c ∈ columns → c ≠ "id" → c ≠ "created_at" →
  default_row now !! c = Some VNull.
Proof.
  unfold columns. rewrite !elem_of_cons, elem_of_nil.
  intros Hc ? ?. by repeat destruct Hc as [-> | Hc].
Qed.

(** X7: the record a create returns holds, in every column other than [id]
    and [created_at], the value the body supplied for it, and NULL where the
    body left the field out or supplied [null]. *)
Theorem create_stores_supplied_values s book new_book s' c :
  main.create_book book s = (Return new_book, s') →
  c ∈ columns → c ≠ "id" → c ≠ "created_at" →
  new_book !! c = Some (default VNull (dict_exclude_unset book !! c)).
Proof.
  intros Hrun Hc Hid Hat.
  apply create_book_returns in Hrun as (_ & _ & -> & _).
  unfold select_star. simpl. rewrite lookup_insert_ne by done.
  rewrite lookup_union, filtered_data_lookup, default_row_lookup by done.
  by destruct (dict_exclude_unset book !! c) as [[| |]|].
Qed.

Lemma create_stores_supplied_values_witness :
  row_T !! "title" = Some (VText "T") ∧ row_T !! "publisher" = Some VNull.
Proof.
  split.
  - apply (create_stores_supplied_values empty_db book_T row_T shelf "title");
      [reflexivity | apply (bool_decide_unpack _); by vm_compute
       | done | done].
  - apply (create_stores_supplied_values
             empty_db book_T row_T shelf "publisher");
      [reflexivity | apply (bool_decide_unpack _); by vm_compute
       | done | done].
Defined.

(** X8: a create that returns adds one record: the id it shows was free,
    holds the returned record afterwards, every other record is as it was,
    and the table has one row more. *)
Theorem create_adds_one_record s book new_book s' :
  main.create_book book s = (Return new_book, s') →
  stored s (row_id new_book) = None
  ∧ stored s' (row_id new_book) = Some new_book
  ∧ (∀ k, k ≠ row_id new_book → stored s' k = stored s k)
  ∧ size (books s') = S (size (books s)).
Proof.
  intros Hrun. apply create_book_returns in Hrun as (_ & _ & -> & ->).
  rewrite row_id_select_star. unfold stored. simpl.
  rewrite new_rowid_fresh, lookup_insert_eq. split; [done|]. split; [done|].
  split.
  - intros k Hk. by rewrite lookup_insert_ne.
  - apply map_size_insert_None, new_rowid_fresh.
Qed.

Lemma create_adds_one_record_witness :
  stored empty_db (row_id row_T) = None
  ∧ stored shelf (row_id row_T) = Some row_T
  ∧ (∀ k, k ≠ row_id row_T → stored shelf k = stored empty_db k)
  ∧ size (books shelf) = S (size (books empty_db)).
Proof.
  apply (create_adds_one_record empty_db book_T row_T shelf). reflexivity.
Defined.


(** X10: a replace that returned returns the same record, and leaves the
    store as it is, when it is sent again. *)
Theorem replace_is_idempotent s book_id book row s' :
  main.update_book book_id book s = (Return row, s') →
  main.update_book book_id book s' = (Return row, s').
Proof.
  rewrite !update_book_handler_spec.
  destruct (validation_errors book); [|done].
  destruct (books s !! book_id) as [r|] eqn:Hr; [|done]. cbv zeta.
  case_decide as Hempty; [done|]. intros [= <- <-]. simpl.
  rewrite lookup_alter_eq, Hr. simpl.
  assert (dict_exclude_unset book ∪ (dict_exclude_unset book ∪ r)
          = dict_exclude_unset book ∪ r) as Hsame.
  { by rewrite (assoc_L (∪)), (idemp_L (∪)). }
  rewrite Hsame. f_equal. unfold set_books. simpl. f_equal.
  apply map_eq. intros k. destruct (decide (k = book_id)) as [->|Hk].
  - rewrite !lookup_alter_eq, Hr. simpl. by rewrite Hsame.
  - by rewrite !lookup_alter_ne.
Qed.

Lemma replace_is_idempotent_witness :
  ∃ row s',
    main.update_book 1 (only_price 500) shelf = (Return row, s')
    ∧ main.update_book 1 (only_price 500) s' = (Return row, s').
Proof.
  destruct (update_book_effect shelf 1 (only_price 500) row_T)
    as (s' & Hrun & _);
    [reflexivity
     | apply (lookup_Some_nonempty _ "price" (VInt 500)); reflexivity
     | reflexivity |].
  eexists _, s'. split; [exact Hrun|].
  exact (replace_is_idempotent shelf 1 (only_price 500) _ _ Hrun).
Defined.

End writing.

Section outcomes.
Import models.
Implicit Types (s : db) (book : BookCreate) (book_id : Z) (r : request).



(** X12: with no value other than [None] to insert, the store's create
    fails with the engine's syntax error, and so does the store's update
    with no key other than [id] and [created_at]; neither changes the
    store. *)
Theorem store_write_of_nothing_is_an_error s book_id (book_data : dict) :
  (filter (λ kv, kv.2 ≠ VNull) book_data = ∅ →
     ∃ msg, database.create_book book_data s
            = (Raise (OperationalError msg), s))
  ∧ (filter (λ kv, kv.1 ∉ ["id"; "created_at"]) book_data = ∅ →
     ∃ msg, database.update_book book_id book_data s
            = (Raise (OperationalError msg), s)).
Proof.
  split; intros Hempty.
  - unfold database.create_book, database.insert_statement. unfold_M.
    rewrite Hempty, map_to_list_empty. by eexists.
  - unfold database.update_book, database.update_statement. unfold_M.
    rewrite Hempty, map_to_list_empty. by eexists.
Qed.

Lemma store_write_of_nothing_is_an_error_witness :
  (∃ msg, database.create_book {[ "publisher" := VNull ]} shelf
          = (Raise (OperationalError msg), shelf))
  ∧ (∃ msg, database.update_book 1 {[ "id" := VInt 7 ]} shelf
            = (Raise (OperationalError msg), shelf)).
Proof.
  split.
  - apply (store_write_of_nothing_is_an_error shelf 1 {[ "publisher" := VNull ]}).
    reflexivity.
  - apply (store_write_of_nothing_is_an_error shelf 1 {[ "id" := VInt 7 ]}).
    reflexivity.
Defined.

End outcomes.

Section invariants.
Import models.
Implicit Types (s : db) (book : BookCreate) (book_id : Z) (r : request).

(** What a request can do to the table. *)
Lemma handle_books r s :
  books (handle r s).2 = books s
  ∨ (∃ book,
       validation_errors book = []
       ∧ books (handle r s).2
         = <[new_rowid s :=
               filter (λ kv, kv.2 ≠ VNull) (dict_exclude_unset book)
               ∪ default_row (clock s)]> (books s))
  ∨ (∃ book_id book,
       validation_errors book = []
       ∧ books (handle r s).2
         = alter (λ row, dict_exclude_unset book ∪ row) book_id (books s))
  ∨ (∃ book_id, books (handle r s).2 = delete book_id (books s)).
Proof.
  destruct r as [skip limit|book_id|book|book_id book|book_id]; simpl;
    rewrite ?bind_mret_state.
  - left. by rewrite read_books_state.
  - left. rewrite read_book_spec. by destruct (stored s book_id).
  - rewrite create_book_handler_spec.
    destruct (validation_errors book) eqn:Hvalid; [|by left]. cbv zeta.
    destruct (missing_required _); [by left|]. right. left. by exists book.
  - rewrite update_book_handler_spec.
    destruct (validation_errors book) eqn:Hvalid; [|by left].
    destruct (books s !! book_id); [|by left]. cbv zeta.
    case_decide; [by left|]. right. right. left. by exists book_id, book.
  - unfold_M. rewrite delete_book_handler_spec.
    destruct (books s !! book_id); [|by left].
    right. right. right. by exists book_id.
Qed.

Lemma run_keeps (P : gmap Z dict → Prop) :
  (∀ r s, P (books s) → P (books (handle r s).2)) →
  ∀ history s, P (books s) → P (books (run history s).2).
Proof.
  intros Hstep history.
  induction history as [|[now r] history IH]; intros s Hs; [done|].
  cbn [run]. specialize (Hstep r (set_clock now s) Hs).
  destruct (handle r (set_clock now s)) as [o s1].
  specialize (IH s1 Hstep). by destruct (run history s1).
Qed.

Lemma dict_exclude_unset_in_default_row book c v now :
  dict_exclude_unset book !! c = Some v →
  c ∈ dom (default_row now).
Proof.
  intros Hc. apply elem_of_dom. rewrite default_row_lookup; [done|..].
  - by apply (dict_exclude_unset_field_mapping book c v).
  - intros ->. by rewrite dict_exclude_unset_no_id in Hc.
  - intros ->. by rewrite dict_exclude_unset_no_created_at in Hc.
Qed.

Lemma dom_default_row now : dom (default_row now) = dom (default_row "").
Proof. unfold default_row. by rewrite !dom_insert_L, !dom_singleton_L. Qed.

Lemma dom_select_star k (row : dict) :
  dom row = dom (default_row "") →
  dom (select_star (k, row)) = list_to_set columns.
Proof.
  intros Hrow. unfold select_star. simpl. rewrite dom_insert_L, Hrow.
  unfold default_row, columns.
  rewrite !dom_insert_L, !dom_singleton_L. simpl. set_solver.
Qed.

(** X13: requests keep the shape of the table: if every stored row holds
    exactly the columns other than [id], this is so after any history of
    requests, and every record fetched then shows exactly the nine columns
    of the table. *)
Theorem requests_keep_table_shape history s0 :
  table_shape s0 →
  table_shape (run history s0).2
  ∧ ∀ k row, stored (run history s0).2 k = Some row →
             dom row = list_to_set columns.
Proof.
  intros Hshape.
  assert (table_shape (run history s0).2) as Hrun.
  { revert history s0 Hshape.
    apply (run_keeps (map_Forall (λ _ row, dom row = dom (default_row "")))).
    intros r s Hs.
    destruct (handle_books r s)
      as [-> | [(book & _ & ->) | [(book_id & book & _ & ->) | [book_id ->]]]].
    - done.
    - apply map_Forall_insert_2; [|done].
      rewrite dom_union_L, dom_default_row. apply subseteq_union_1_L.
      intros c Hc. apply elem_of_dom in Hc as [v Hc].
      rewrite filtered_data_lookup in Hc.
      destruct (dict_exclude_unset book !! c) as [v'|] eqn:Hc'; [|done].
      by apply (dict_exclude_unset_in_default_row book c v').
    - intros k row. rewrite lookup_alter.
      case_decide; [subst k|by apply Hs].
      destruct (books s !! book_id) as [row0|] eqn:Hrow0; [|done].
      intros [= <-]. rewrite dom_union_L, (Hs _ _ Hrow0).
      apply subseteq_union_1_L. intros c Hc.
      apply elem_of_dom in Hc as [v Hc].
      by apply (dict_exclude_unset_in_default_row book c v).
    - by apply map_Forall_delete. }
  split; [done|]. intros k row Hrow.
  apply stored_Some in Hrow as (row0 & Hrow0 & ->).
  by apply (dom_select_star k), (Hrun k).
Qed.

Lemma requests_keep_table_shape_witness :
  table_shape (run busy_day empty_db).2.
Proof.
  apply (requests_keep_table_shape busy_day empty_db).
  apply (bool_decide_unpack _). by vm_compute.
Defined.




End invariants.

Section composing.
Import models.
Implicit Types (s : db) (book : BookCreate) (book_id : Z).

Lemma order_by_id_insert_last (t : gmap Z dict) k row :
  (∀ k' r, t !! k' = Some r → k' < k) →
  order_by_id (<[k := row]> t) = order_by_id t ++ [(k, row)].
Proof.
  intros Hmax.
  assert (t !! k = None) as Hfree.
  { destruct (t !! k) as [r|] eqn:Hk; [|done].
    specialize (Hmax k r Hk). lia. }
  assert (AntiSymm (=) (λ x y : Z * dict, x.1 < y.1)) as Hanti.
  { intros x y. lia. }
  assert (∀ t', StronglySorted (λ x y : Z * dict, x.1 < y.1) (order_by_id t'))
    as Hsorted.
  { intros t'. apply StronglySorted_by_id_strict.
    - apply StronglySorted_merge_sort; apply _.
    - rewrite order_by_id_Permutation. apply NoDup_fst_map_to_list. }
  apply (StronglySorted_unique (λ x y : Z * dict, x.1 < y.1)); [done | |].
  - apply StronglySorted_app. split; [|split; [done|]].
    + intros [k1 r1] x2 Hin1 Hin2. apply list_elem_of_singleton in Hin2 as ->.
      apply elem_of_order_by_id in Hin1. simpl. by apply (Hmax k1 r1).
    + repeat constructor.
  - rewrite !order_by_id_Permutation, map_to_list_insert by done.
    apply Permutation_cons_append.
Qed.

(** X15: after a create returned, a listing from the start with a limit
    above the number of rows there were is the listing there was, followed
    by the new record. *)
Theorem created_book_is_listed_last s book new_book s' (limit : Z) :
  main.create_book book s = (Return new_book, s') →
  Z.of_nat (size (books s)) < limit ≤ 100 →
  ∃ rows,
    main.read_books 0 limit s = (Return rows, s)
    ∧ main.read_books 0 limit s' = (Return (rows ++ [new_book]), s').
Proof.
  intros Hrun Hlimit. apply create_book_returns in Hrun as (_ & _ & -> & ->).
  rewrite !read_books_spec. unfold main.query_errors.
  rewrite !bool_decide_eq_true_2 by lia. simpl.
  eexists. split; [done|]. f_equal. f_equal.
  unfold limit_offset. rewrite !decide_False by lia. simpl.
  rewrite order_by_id_insert_last.
  - change (Z.to_nat 0) with 0%nat. rewrite !drop_0.
    rewrite !take_ge, fmap_app; [done|..].
    + rewrite order_by_id_length. lia.
    + rewrite length_app, order_by_id_length. simpl. lia.
  - intros k' r Hk'. apply max_rowid_ge in Hk'. unfold new_rowid. lia.
Qed.

Lemma created_book_is_listed_last_witness :
  ∃ rows,
    main.read_books 0 10 empty_db = (Return rows, empty_db)
    ∧ main.read_books 0 10 shelf = (Return (rows ++ [row_T]), shelf).
Proof.
  apply (created_book_is_listed_last empty_db book_T row_T shelf 10).
  - reflexivity.
  - change (size (books empty_db)) with 0%nat. lia.
Defined.

(** X16: a delete that returned fails with the 404 exception when it is
    sent again, and the second one changes nothing. *)
Theorem delete_is_not_repeatable s book_id s' :
  main.delete_book book_id s = (Return (), s') →
  main.delete_book book_id s' = (Raise (main.not_found book_id), s').
Proof.
  rewrite !delete_book_handler_spec.
  destruct (books s !! book_id); [|done]. intros [= <-]. simpl.
  by rewrite lookup_delete_eq.
Qed.

Lemma delete_is_not_repeatable_witness :
  main.delete_book 1 (main.delete_book 1 shelf).2
  = (Raise (main.not_found 1), (main.delete_book 1 shelf).2).
Proof. apply (delete_is_not_repeatable shelf 1). reflexivity. Defined.

End composing.

Section store_round_trip.
Implicit Types (s : db).



End store_round_trip.
